(** * Health monitoring of SSH servers: a shallow embedding

    The development follows [src/services/MonitoringService.ts] and the
    connectivity test of [src/services/SSHService.ts].

    - JavaScript values are modelled only as far as the code inspects them:
      truthiness, property access, thrown values.
    - Integer-valued numbers (timestamps in milliseconds, counters, response
      times) are [Z]; the uptime ratio is computed in IEEE 754 binary64, as
      JavaScript does, with the operations of [SpecFloat].
    - An ISO-8601 timestamp string is represented by the instant it denotes,
      in milliseconds since the epoch ([new Date(s).getTime()] and
      [toISOString] are inverse to each other on such strings).
    - [async] code is sequential here: every [await] is a call that returns
      or throws.  The state is threaded explicitly, together with a log of
      the calls made to the collaborators (storage, notification sink,
      connectivity test). *)

From Stdlib Require Import ZArith String List SpecFloat DecimalString Lia.
From stdpp Require Import base option list gmap strings.

Open Scope string_scope.
Open Scope Z_scope.

(** ** JavaScript basics *)

Module JS.

(** A thrown value: an [Error] object with its [message], a string, or any
    other value, kept by what [String(v)] renders. *)
Inductive Thrown :=
| ThrownError (message : string)
| ThrownString (s : string)
| ThrownOther (rendering : string).

(** A call either returns or throws. *)
Inductive Result (A : Type) :=
| Ok (a : A)
| Throw (e : Thrown).
Arguments Ok {A} a.
Arguments Throw {A} e.

#[warnings="-register-all"]
Inductive JsValue :=
| JsUndefined
| JsNull
| JsBool (b : bool)
| JsNumber (z : Z)
| JsString (s : string)
| JsObject (fields : list (string * JsValue)).

(** [ToBoolean]: what [if (v)], [!v] and [v || w] test. *)
Definition truthy (v : JsValue) : bool :=
  match v with
  | JsUndefined | JsNull => false
  | JsBool b => b
  | JsNumber z => negb (z =? 0)
  | JsString s => negb (String.eqb s "")
  | JsObject _ => true
  end.

(** [a || b] *)
Definition js_or (a b : JsValue) : JsValue := if truthy a then a else b.

Fixpoint assoc (k : string) (fields : list (string * JsValue)) : JsValue :=
  match fields with
  | [] => JsUndefined
  | (k', v) :: rest => if String.eqb k' k then v else assoc k rest
  end.

(** [v.k]: a [TypeError] on [undefined] and [null], [undefined] on a
    primitive (none of the names used here is on a prototype). *)
Definition prop (v : JsValue) (k : string) : Result JsValue :=
  match v with
  | JsUndefined | JsNull =>
      Throw (ThrownError ("Cannot read property '" +:+ k +:+ "' of undefined"))
  | JsObject fields => Ok (assoc k fields)
  | _ => Ok JsUndefined
  end.

(** [hay.includes(needle)] *)
Fixpoint includes (needle hay : string) : bool :=
  if String.prefix needle hay then true
  else match hay with
       | EmptyString => false
       | String _ rest => includes needle rest
       end.

(** [array.slice(start)], for an integer [start]: a negative [start] counts
    from the end. *)
Definition slice {A : Type} (start : Z) (l : list A) : list A :=
  let len := Z.of_nat (length l) in
  let k := if start <? 0 then Z.max (len + start) 0 else Z.min start len in
  drop (Z.to_nat k) l.

(** Rendering of an integer-valued number in a template literal. *)
Definition Number_toString (z : Z) : string := NilZero.string_of_int (Z.to_int z).

(** *** binary64 arithmetic *)

Definition Number := spec_float.
Definition prec : Z := 53.
Definition emax : Z := 1024.

(** The double nearest to an integer (exact below 2^53). *)
Definition Number_ofZ (z : Z) : Number := binary_normalize prec emax z 0 false.
Definition Number_div : Number -> Number -> Number := SFdiv prec emax.
Definition Number_mul : Number -> Number -> Number := SFmul prec emax.

(** [Math.round(x)] is [floor(x + 0.5)], computed exactly.  The finite
    double [m * 2^e] is an integer when [0 <= e]; otherwise
    [floor (m * 2^e + 1/2) = floor ((2 m + 2^-e) / 2^(1-e))].  Zeros round to
    0.  [NaN] and the infinities are returned as they are by JavaScript; they
    are not integers and are given as 0 here (the callers below divide a
    count by a positive length and never produce them). *)
Definition Math_round (x : Number) : Z :=
  match x with
  | S754_finite s m e =>
      let n := if s then Z.neg m else Z.pos m in
      if 0 <=? e then n * 2 ^ e
      else (2 * n + 2 ^ (- e)) / 2 ^ (1 - e)
  | _ => 0
  end.

End JS.
Export JS.

(** ** The connectivity test of SSHService.ts *)

Module SSH.

Inductive AuthMethod := password | key.

Module Server.
Record t := mk {
  id : string;
  name : string;
  host : string;
  port : Z;
  username : string;
  authMethod : AuthMethod }.
End Server.

(** A promise of the SSH client library: it settles after some milliseconds
    by resolving or rejecting, or it never settles. *)
Inductive Promise (A : Type) :=
| Settles (afterMs : Z) (r : Result A)
| Pending.
Arguments Settles {A} afterMs r.
Arguments Pending {A}.

(** The connected client, as far as [testConnection] uses it. *)
Record Client := { disconnect : Result unit }.

(** [@dylankenneally/react-native-ssh-sftp], the external library. *)
Record SSHClient := {
  connectWithPassword : string -> Z -> string -> JsValue -> Promise Client;
  connectWithKey : string -> Z -> string -> JsValue -> JsValue -> Promise Client }.

Definition CONNECTION_TIMEOUT : Z := 15000.

(** [_createConnection]: an [async] function, so what it throws is a
    rejection of the promise it returns. *)
Definition _createConnection (lib : SSHClient) (host : string) (port : Z)
    (username : string) (authMethod : AuthMethod) (credentials : JsValue)
  : Promise Client :=
  match authMethod with
  | password =>
      match prop credentials "password" with
      | Throw e => Settles 0 (Throw e)
      | Ok pw =>
          if negb (truthy pw)
          then Settles 0 (Throw (ThrownError "Password is required for password authentication"))
          else connectWithPassword lib host port username pw
      end
  | key =>
      match prop credentials "privateKey" with
      | Throw e => Settles 0 (Throw e)
      | Ok pk =>
          if negb (truthy pk)
          then Settles 0 (Throw (ThrownError "Private key is required for key authentication"))
          else match prop credentials "passphrase" with
               | Throw e => Settles 0 (Throw e)
               | Ok pp => connectWithKey lib host port username pk (js_or pp (JsString ""))
               end
      end
  end.

(** [_withTimeout]: the race of the promise against a timer that rejects
    with [timeoutMessage]; the promise wins when it settles first. *)
Definition _withTimeout {A : Type} (promise : Promise A) (timeoutMs : Z)
    (timeoutMessage : string) : Result A :=
  match promise with
  | Settles t r => if t <? timeoutMs then r else Throw (ThrownError timeoutMessage)
  | Pending => Throw (ThrownError timeoutMessage)
  end.

(** [_parseError] *)
Definition _parseError (error : Thrown) : string :=
  match error with
  | ThrownString s => s
  | _ =>
      let message :=
        match error with
        | ThrownError m => if String.eqb m "" then "Error" else m
        | ThrownString s => s
        | ThrownOther r => r
        end in
      if includes "timeout" message || includes "timed out" message then
        "Connection timed out. Please check your network and server address."
      else if includes "authentication" message || includes "auth fail" message then
        "Authentication failed. Please check your username and password/key."
      else if includes "host key" message || includes "hostkey" message then
        "Host key verification failed. The server identity could not be verified."
      else if includes "refused" message || includes "ECONNREFUSED" message then
        "Connection refused. The server may be down or SSH is not enabled."
      else if includes "unreachable" message || includes "EHOSTUNREACH" message then
        "Host unreachable. Please check the server address and your network."
      else if includes "network" message || includes "ENETUNREACH" message then
        "Network error. Please check your internet connection."
      else if includes "permission denied" message then
        "Permission denied. Check file/directory permissions on the server."
      else if includes "no such file" message then
        "File or directory not found on the server."
      else message
  end.

(** [testConnection(server, credentials)]: it returns an object
    [{ success, error? }] and never throws. *)
Definition testConnection (lib : SSHClient) (server : Server.t) (credentials : JsValue)
  : JsValue :=
  let failed error :=
    JsObject [("success", JsBool false); ("error", JsString (_parseError error))] in
  match _withTimeout
          (_createConnection lib (Server.host server) (Server.port server)
             (Server.username server) (Server.authMethod server) credentials)
          CONNECTION_TIMEOUT "Connection test timed out" with
  | Ok client =>
      match disconnect client with
      | Ok _ => JsObject [("success", JsBool true)]
      | Throw error => failed error
      end
  | Throw error => failed error
  end.

End SSH.
Export SSH.

(** ** MonitoringService.ts: data *)

Module Monitoring.

Inductive Status := online | offline | error | unknown.

Inductive Outcome := success | failure.

Definition Status_eqb (a b : Status) : bool :=
  match a, b with
  | online, online | offline, offline | error, error | unknown, unknown => true
  | _, _ => false
  end.

Definition Status_toString (s : Status) : string :=
  match s with
  | online => "online"
  | offline => "offline"
  | error => "error"
  | unknown => "unknown"
  end.

Definition Outcome_eqb (a b : Outcome) : bool :=
  match a, b with
  | success, success | failure, failure => true
  | _, _ => false
  end.

Module HealthCheckConfig.
Record t := mk {
  serverId : string;
  interval : Z;
  enabled : bool;
  notifyOnFailure : bool;
  notifyOnRecovery : bool }.
End HealthCheckConfig.

Module ServerHealthStatus.
Record t := mk {
  serverId : string;
  status : Status;
  lastChecked : Z;
  lastOnline : option Z;
  consecutiveFailures : Z;
  uptimePercentage : Z;
  responseTime : option Z;
  errorMessage : option string }.
End ServerHealthStatus.

Module HealthCheckHistory.
Record t := mk {
  timestamp : Z;
  status : Outcome;
  responseTime : option Z;
  error : option string }.
End HealthCheckHistory.

(** ** The collaborators and the state *)

(** The text stored under a key: the [JSON.stringify] of a value of the
    type the service keeps there, or text that [JSON.parse] rejects.  (An
    empty string is falsy and reads like an absent key; it is identified
    with one.) *)
Inductive Text (A : Type) :=
| JSON (a : A)
| Malformed.
Arguments JSON {A} a.
Arguments Malformed {A}.

(** The three families of keys of the service. *)
Inductive Key :=
| KStatus (serverId : string)
| KHistory (serverId : string)
| KConfigs.

Definition STORAGE_KEY_PREFIX : string := "@monitoring_".

Definition Key_toString (k : Key) : string :=
  match k with
  | KStatus serverId => STORAGE_KEY_PREFIX +:+ "status_" +:+ serverId
  | KHistory serverId => STORAGE_KEY_PREFIX +:+ "history_" +:+ serverId
  | KConfigs => STORAGE_KEY_PREFIX +:+ "configs"
  end.

(** The calls made to the collaborators, and the entry into
    [handleNotifications], in the order they happen.  [EvTestConnection]
    marks the probe attempt of [checkServerHealth], whether or not the call
    goes through. *)
Inductive Event :=
| EvTestConnection (serverId : string)
| EvGetItem (k : Key)
| EvSetItem (k : Key)
| EvHandleNotifications (serverId : string)
| EvScheduleNotification (title body serverId type : string)
| EvIsTaskRegistered
| EvRegisterTask.

(** The state: AsyncStorage (one typed partition per key family, indexed by
    the server id inside the key), the in-memory [healthCheckConfigs] map in
    insertion order, whether the scheduling host has the task registered, and
    the environment.  [fault n] tells whether the [n]-th
    collaborator call rejects and [clock n] is what [Date.now()] reads at
    step [n]; both are arbitrary. *)
Record World := mkWorld {
  statusItems : gmap string (Text ServerHealthStatus.t);
  historyItems : gmap string (Text (list HealthCheckHistory.t));
  configsItem : option (Text (list HealthCheckConfig.t));
  healthCheckConfigs : list (string * HealthCheckConfig.t);
  taskRegistered : bool;
  fault : nat -> bool;
  clock : nat -> Z;
  step : nat;
  trace : list Event }.

Definition set_statusItems (f : gmap string (Text ServerHealthStatus.t) -> gmap string (Text ServerHealthStatus.t)) (w : World) : World :=
  mkWorld (f (statusItems w)) (historyItems w) (configsItem w) (healthCheckConfigs w)
    (taskRegistered w) (fault w) (clock w) (step w) (trace w).

Definition set_historyItems (f : gmap string (Text (list HealthCheckHistory.t)) -> gmap string (Text (list HealthCheckHistory.t))) (w : World) : World :=
  mkWorld (statusItems w) (f (historyItems w)) (configsItem w) (healthCheckConfigs w)
    (taskRegistered w) (fault w) (clock w) (step w) (trace w).

Definition set_configsItem (c : option (Text (list HealthCheckConfig.t))) (w : World) : World :=
  mkWorld (statusItems w) (historyItems w) c (healthCheckConfigs w)
    (taskRegistered w) (fault w) (clock w) (step w) (trace w).

Definition set_taskRegistered (b : bool) (w : World) : World :=
  mkWorld (statusItems w) (historyItems w) (configsItem w) (healthCheckConfigs w)
    b (fault w) (clock w) (step w) (trace w).

Definition set_healthCheckConfigs (f : list (string * HealthCheckConfig.t) -> list (string * HealthCheckConfig.t)) (w : World) : World :=
  mkWorld (statusItems w) (historyItems w) (configsItem w) (f (healthCheckConfigs w))
    (taskRegistered w) (fault w) (clock w) (step w) (trace w).

(** One step of the environment, logging [ev]. *)
Definition tick (ev : list Event) (w : World) : World :=
  mkWorld (statusItems w) (historyItems w) (configsItem w) (healthCheckConfigs w)
    (taskRegistered w) (fault w) (clock w) (S (step w)) (trace w ++ ev)%list.

(** *** The monad of the service: state and exceptions *)

Definition M (A : Type) : Type := World -> Result A * World.

Definition ret {A : Type} (a : A) : M A := fun w => (Ok a, w).

Definition throw {A : Type} (e : Thrown) : M A := fun w => (Throw e, w).

Definition bind {A B : Type} (m : M A) (k : A -> M B) : M B :=
  fun w =>
    match m w with
    | (Ok a, w') => k a w'
    | (Throw e, w') => (Throw e, w')
    end.

(** [try { m } catch (e) { h e }] *)
Definition try_catch {A : Type} (m : M A) (h : Thrown -> M A) : M A :=
  fun w =>
    match m w with
    | (Ok a, w') => (Ok a, w')
    | (Throw e, w') => h e w'
    end.

Definition lift {A : Type} (r : Result A) : M A := fun w => (r, w).

Definition gets {A : Type} (f : World -> A) : M A := fun w => (Ok (f w), w).

Definition modify (f : World -> World) : M unit := fun w => (Ok tt, f w).

Declare Scope monad_scope.
Delimit Scope monad_scope with monad.
Notation "'let*' x ':=' m 'in' k" := (bind m (fun x => k))
  (at level 10, x pattern, m at level 99, k at level 200) : monad_scope.
Notation "m ;; k" := (bind m (fun _ => k))
  (at level 100, right associativity) : monad_scope.
Open Scope monad_scope.

(** A call to a collaborator: it is logged, takes one step, and rejects when
    the environment says so; a call that rejects has no other effect. *)
Definition external (ev : Event) : M unit :=
  fun w =>
    (if fault w (step w) then Throw (ThrownError "rejected") else Ok tt,
     tick [ev] w).

(** A call into the service that is logged but cannot fail by itself. *)
Definition enter (ev : Event) : M unit :=
  fun w => (Ok tt, mkWorld (statusItems w) (historyItems w) (configsItem w)
                     (healthCheckConfigs w) (taskRegistered w) (fault w) (clock w) (step w)
                     (trace w ++ [ev])%list).

(** [Date.now()], also behind [new Date()]. *)
Definition Date_now : M Z :=
  fun w => (Ok (clock w (step w)), tick [] w).

(** [JSON.parse] *)
Definition JSON_parse {A : Type} (data : Text A) : M A :=
  match data with
  | JSON a => ret a
  | Malformed => throw (ThrownError "JSON Parse error")
  end.

(** [AsyncStorage.getItem] and [setItem], per key family. *)
Definition getItem_status (serverId : string) : M (option (Text ServerHealthStatus.t)) :=
  external (EvGetItem (KStatus serverId)) ;;
  gets (fun w => statusItems w !! serverId).

Definition setItem_status (serverId : string) (v : ServerHealthStatus.t) : M unit :=
  external (EvSetItem (KStatus serverId)) ;;
  modify (set_statusItems (insert serverId (JSON v))).

Definition getItem_history (serverId : string) : M (option (Text (list HealthCheckHistory.t))) :=
  external (EvGetItem (KHistory serverId)) ;;
  gets (fun w => historyItems w !! serverId).

Definition setItem_history (serverId : string) (v : list HealthCheckHistory.t) : M unit :=
  external (EvSetItem (KHistory serverId)) ;;
  modify (set_historyItems (insert serverId (JSON v))).

Definition setItem_configs (v : list HealthCheckConfig.t) : M unit :=
  external (EvSetItem KConfigs) ;;
  modify (set_configsItem (Some (JSON v))).

(** *** The [Map<string, HealthCheckConfig>] of the service, in insertion order *)

Definition Map_get (k : string) (m : list (string * HealthCheckConfig.t))
  : option HealthCheckConfig.t :=
  snd <$> List.find (fun p => String.eqb (fst p) k) m.

Fixpoint Map_set (k : string) (v : HealthCheckConfig.t)
    (m : list (string * HealthCheckConfig.t)) : list (string * HealthCheckConfig.t) :=
  match m with
  | [] => [(k, v)]
  | (k', v') :: rest =>
      if String.eqb k' k then (k, v) :: rest else (k', v') :: Map_set k v rest
  end.

Definition Map_delete (k : string) (m : list (string * HealthCheckConfig.t))
  : list (string * HealthCheckConfig.t) :=
  List.filter (fun p => negb (String.eqb (fst p) k)) m.

Definition Map_values (m : list (string * HealthCheckConfig.t)) : list HealthCheckConfig.t :=
  List.map snd m.

(** ** MonitoringService.ts: operations *)

Definition DAY_MS : Z := 24 * 60 * 60 * 1000.

(** [getServerStatus] *)
Definition getServerStatus (serverId : string) : M (option ServerHealthStatus.t) :=
  try_catch
    (let* data := getItem_status serverId in
     match data with
     | Some text => let* s := JSON_parse text in ret (Some s)
     | None => ret None
     end)
    (fun _ => ret None).

(** [getHealthHistory(serverId, limit = 100)] *)
Definition getHealthHistory (serverId : string) (limit : Z) : M (list HealthCheckHistory.t) :=
  try_catch
    (let* data := getItem_history serverId in
     let* history := match data with
                     | Some text => JSON_parse text
                     | None => ret []
                     end in
     ret (slice (- limit) history))
    (fun _ => ret []).

Definition getHealthHistory_default_limit : Z := 100.

(** [saveServerStatus] *)
Definition saveServerStatus (serverId : string) (status : ServerHealthStatus.t) : M unit :=
  try_catch (setItem_status serverId status) (fun _ => ret tt).

(** [addHistoryEntry] *)
Definition addHistoryEntry (serverId : string) (entry : HealthCheckHistory.t) : M unit :=
  try_catch
    (let* data := getItem_history serverId in
     let* history := match data with
                     | Some text => JSON_parse text
                     | None => ret []
                     end in
     let history := (history ++ [entry])%list in
     let trimmed := slice (-1000) history in
     setItem_history serverId trimmed)
    (fun _ => ret tt).

(** The body of [calculateUptime] after the history is fetched, given what
    [Date.now()] reads. *)
Definition uptimeOf (history : list HealthCheckHistory.t) (now : Z) : Z :=
  let oneDayAgo := now - DAY_MS in
  let recentHistory :=
    List.filter (fun entry => oneDayAgo <? HealthCheckHistory.timestamp entry) history in
  if Nat.eqb (length recentHistory) 0 then 100
  else
    let successCount :=
      length (List.filter
                (fun entry => Outcome_eqb (HealthCheckHistory.status entry) success)
                recentHistory) in
    Math_round
      (Number_mul
         (Number_div (Number_ofZ (Z.of_nat successCount))
            (Number_ofZ (Z.of_nat (length recentHistory))))
         (Number_ofZ 100)).

(** [calculateUptime] *)
Definition calculateUptime (serverId : string) : M Z :=
  try_catch
    (let* history := getHealthHistory serverId getHealthHistory_default_limit in
     let* now := Date_now in
     ret (uptimeOf history now))
    (fun _ => ret 0).

(** [sendNotification]: nothing is caught here. *)
Definition sendNotification (title body serverId type : string) : M unit :=
  external (EvScheduleNotification title body serverId type).

(** [handleNotifications] *)
Definition handleNotifications (server : Server.t) (currentStatus : ServerHealthStatus.t)
    (previousStatus : option ServerHealthStatus.t) (config : HealthCheckConfig.t) : M unit :=
  enter (EvHandleNotifications (Server.id server)) ;;
  let statusChanged :=
    match previousStatus with
    | Some p =>
        negb (Status_eqb (ServerHealthStatus.status p) (ServerHealthStatus.status currentStatus))
    | None => false
    end in
  if negb statusChanged then ret tt
  else
    (if negb (Status_eqb (ServerHealthStatus.status currentStatus) online)
        && HealthCheckConfig.notifyOnFailure config
     then sendNotification
            ("Server " +:+ Server.name server +:+ " is "
               +:+ Status_toString (ServerHealthStatus.status currentStatus))
            (match ServerHealthStatus.errorMessage currentStatus with
             | Some m => if String.eqb m "" then "Connection check failed" else m
             | None => "Connection check failed"
             end)
            (Server.id server) "failure"
     else ret tt) ;;
    (if Status_eqb (ServerHealthStatus.status currentStatus) online
        && HealthCheckConfig.notifyOnRecovery config
     then sendNotification
            ("Server " +:+ Server.name server +:+ " is back online")
            ("Response time: "
               +:+ (match ServerHealthStatus.responseTime currentStatus with
                    | Some ms => Number_toString ms
                    | None => "null"
                    end) +:+ "ms")
            (Server.id server) "recovery"
     else ret tt).

(** What the [try] block of [checkServerHealth] hands on. *)
Record Probe := mkProbe {
  probe_status : Status;
  probe_responseTime : option Z;
  probe_errorMessage : option string }.

(** [checkServerHealth].  [SSHService_testConnection] is what the name
    [SSHService.testConnection] of the dynamic import does when called with
    the server and [5000]: it returns a value or throws (a failing import or
    member lookup throws as well).  In
    [(previousStatus?.consecutiveFailures || 0) + 1] the [|| 0] turns a
    missing status, and a count of 0, into 0. *)
Definition checkServerHealth
    (SSHService_testConnection : Server.t -> JsValue -> Result JsValue)
    (serverId : string) (server : Server.t) : M ServerHealthStatus.t :=
  let* startTime := Date_now in
  let* probe :=
    try_catch
      (enter (EvTestConnection (Server.id server)) ;;
       let* connected := lift (SSHService_testConnection server (JsNumber 5000)) in
       if truthy connected then
         let* now := Date_now in
         ret (mkProbe online (Some (now - startTime)) None)
       else
         ret (mkProbe offline None (Some "Connection failed")))
      (fun thrown =>
         ret (mkProbe error None
                (Some match thrown with
                      | ThrownError message => message
                      | _ => "Unknown error"
                      end))) in
  let status := probe_status probe in
  let responseTime := probe_responseTime probe in
  let errorMessage := probe_errorMessage probe in
  let* previousStatus := getServerStatus serverId in
  let consecutiveFailures :=
    if Status_eqb status online then 0
    else (match previousStatus with
          | Some p => ServerHealthStatus.consecutiveFailures p
          | None => 0
          end) + 1 in
  let* timestamp := Date_now in
  addHistoryEntry serverId
    (HealthCheckHistory.mk timestamp
       (if Status_eqb status online then success else failure)
       responseTime errorMessage) ;;
  let* uptimePercentage := calculateUptime serverId in
  let* lastChecked := Date_now in
  let* lastOnline :=
    if Status_eqb status online then
      let* now := Date_now in ret (Some now)
    else
      ret (match previousStatus with
           | Some p => ServerHealthStatus.lastOnline p
           | None => None
           end) in
  let healthStatus :=
    ServerHealthStatus.mk serverId status lastChecked lastOnline
      consecutiveFailures uptimePercentage responseTime errorMessage in
  saveServerStatus serverId healthStatus ;;
  let* config := gets (fun w => Map_get serverId (healthCheckConfigs w)) in
  match config with
  | Some config => handleNotifications server healthStatus previousStatus config
  | None => ret tt
  end ;;
  ret healthStatus.

(** The name [SSHService] bound to the service object that SSHService.ts
    exports: the call is its [testConnection], which never throws. *)
Definition SSHService_object (lib : SSHClient) : Server.t -> JsValue -> Result JsValue :=
  fun server credentials => Ok (testConnection lib server credentials).


(** *** The registry of configurations *)

(** [getConfigs] *)
Definition getConfigs : M (list HealthCheckConfig.t) :=
  gets (fun w => Map_values (healthCheckConfigs w)).

(** [saveConfigs] *)
Definition saveConfigs : M unit :=
  try_catch
    (let* configs := gets (fun w => Map_values (healthCheckConfigs w)) in
     setItem_configs configs)
    (fun _ => ret tt).

(** [registerBackgroundTask]: [TaskManager.isTaskRegisteredAsync] answers
    from the state of the scheduling host, and
    [BackgroundFetch.registerTaskAsync] registers the task there. *)
Definition registerBackgroundTask : M unit :=
  try_catch
    (external EvIsTaskRegistered ;;
     let* isRegistered := gets taskRegistered in
     if negb isRegistered then
       external EvRegisterTask ;;
       modify (set_taskRegistered true)
     else ret tt)
    (fun _ => ret tt).

(** [scheduleHealthCheck] *)
Definition scheduleHealthCheck (config : HealthCheckConfig.t) : M unit :=
  modify (set_healthCheckConfigs (Map_set (HealthCheckConfig.serverId config) config)) ;;
  saveConfigs ;;
  if HealthCheckConfig.enabled config then registerBackgroundTask else ret tt.

(** [unscheduleHealthCheck] *)
Definition unscheduleHealthCheck (serverId : string) : M unit :=
  modify (set_healthCheckConfigs (Map_delete serverId)) ;;
  saveConfigs.

(** [toggleMonitoring]: the assignment [config.enabled = enabled] updates
    the object held by the map, in place. *)
Definition toggleMonitoring (serverId : string) (enabled : bool) : M unit :=
  let* config := gets (fun w => Map_get serverId (healthCheckConfigs w)) in
  match config with
  | Some config =>
      modify (set_healthCheckConfigs
                (Map_set serverId
                   (HealthCheckConfig.mk (HealthCheckConfig.serverId config)
                      (HealthCheckConfig.interval config) enabled
                      (HealthCheckConfig.notifyOnFailure config)
                      (HealthCheckConfig.notifyOnRecovery config)))) ;;
      saveConfigs
  | None => ret tt
  end.

(** *** The background task *)

Inductive BackgroundFetchResult := NewData | NoData | Failed.

(** The loop [for (const config of configs)] of the task. *)
Fixpoint forEach_config (body : HealthCheckConfig.t -> M unit)
    (configs : list HealthCheckConfig.t) : M unit :=
  match configs with
  | [] => ret tt
  | config :: rest => body config ;; forEach_config body rest
  end.

(** The handler defined for [MONITORING_TASK].  [getServers] is what
    [StorageService.getServers()] does (StorageService.ts is not part of the
    sources: its result, or the failure of its import, is a parameter). *)
Definition MONITORING_TASK_handler
    (SSHService_testConnection : Server.t -> JsValue -> Result JsValue)
    (getServers : Result (list Server.t)) : M BackgroundFetchResult :=
  try_catch
    (let* configs := getConfigs in
     let* servers := lift getServers in
     forEach_config
       (fun config =>
          if HealthCheckConfig.enabled config then
            match List.find
                    (fun s => String.eqb (Server.id s) (HealthCheckConfig.serverId config))
                    servers with
            | Some server =>
                checkServerHealth SSHService_testConnection
                  (HealthCheckConfig.serverId config) server ;;
                ret tt
            | None => ret tt
            end
          else ret tt)
       configs ;;
     ret NewData)
    (fun _ => ret Failed).

End Monitoring.
Export Monitoring.

(** ** Vocabulary of the statements *)

(** What a read of the status key yields when the store answers. *)
Definition stored_status (w : World) (serverId : string) : option ServerHealthStatus.t :=
  match statusItems w !! serverId with
  | Some (JSON s) => Some s
  | _ => None
  end.

(** The history kept for a target: an absent key is the empty history;
    [None] when the stored text does not parse. *)
Definition stored_history (w : World) (serverId : string)
  : option (list HealthCheckHistory.t) :=
  match historyItems w !! serverId with
  | Some (JSON h) => Some h
  | Some Malformed => None
  | None => Some []
  end.

(** The collaborators never reject. *)
Definition NoFaults (w : World) : Prop := forall n, fault w n = false.

(** The events logged between two states of one run. *)
Definition events_since (w w' : World) : list Event :=
  drop (length (trace w)) (trace w').

(** The notifications handed to the sink. *)
Definition scheduled (evs : list Event) : list Event :=
  List.filter (fun ev => match ev with EvScheduleNotification _ _ _ _ => true | _ => false end) evs.

(** The servers whose connectivity was tested. *)
Definition probed (evs : list Event) : list string :=
  omap (fun ev => match ev with EvTestConnection serverId => Some serverId | _ => None end) evs.

(** The status that [checkServerHealth] derives from what the connectivity
    test did. *)
Definition classify (r : Result JsValue) : Status :=
  match r with
  | Ok connected => if truthy connected then online else offline
  | Throw _ => error
  end.

(** Every key of the map is the [serverId] of its configuration: all the
    [set] calls of the service are [set(config.serverId, config)]. *)
Definition registry_ok (m : list (string * HealthCheckConfig.t)) : Prop :=
  Forall (fun p => fst p = HealthCheckConfig.serverId (snd p)) m.

(** Following the spec's words: round-half-up of the exact quotient
    [num / den], for [0 < den]. *)
Definition round_half_up (num den : Z) : Z := (2 * num + den) / (2 * den).

(** Following the spec's words: the uptime over a window of [n] records with
    [s] successes, [round(100 * s / n)]. *)
Definition spec_uptime (s n : Z) : Z := round_half_up (100 * s) n.

(** A history of [s] successes followed by [f] failures, all stamped [ts]. *)
Definition sample_history (s f : nat) (ts : Z) : list HealthCheckHistory.t :=
  (repeat (HealthCheckHistory.mk ts success (Some 40) None) s
   ++ repeat (HealthCheckHistory.mk ts failure None (Some "Connection failed")) f)%list.

(** The message that [checkServerHealth] derives from what the connectivity
    test did. *)
Definition error_of (r : Result JsValue) : option string :=
  match r with
  | Ok connected => if truthy connected then None else Some "Connection failed"
  | Throw (ThrownError message) => Some message
  | Throw _ => Some "Unknown error"
  end.

(** What a run leaves alone: the environment and the registry; [evs] is what
    it logs. *)
Record Frame (w w' : World) (evs : list Event) : Prop := {
  fr_fault : fault w' = fault w;
  fr_clock : clock w' = clock w;
  fr_trace : trace w' = (trace w ++ evs)%list;
  fr_configs : healthCheckConfigs w' = healthCheckConfigs w;
  fr_configsItem : configsItem w' = configsItem w }.

(** What one run of [checkServerHealth] does, for the result [r] of the
    connectivity test: [hs] is the status it assembles, [prev] the previous
    status it read, [entry] the history record it appends, [appended] the
    write of the history (absent when the read or the parse failed) and
    [sent] the notification handed to the sink, if any. *)
Record CheckFacts (r : Result JsValue) (serverId : string) (server : Server.t)
    (w : World) (res : Result ServerHealthStatus.t) (w' : World)
    (hs : ServerHealthStatus.t) (prev : option ServerHealthStatus.t)
    (entry : HealthCheckHistory.t) (appended sent : list Event) : Prop := {
  cf_result : res = Ok hs \/ ((exists e, res = Throw e) /\ sent <> []);
  cf_serverId : ServerHealthStatus.serverId hs = serverId;
  cf_status : ServerHealthStatus.status hs = classify r;
  cf_error : ServerHealthStatus.errorMessage hs = error_of r;
  cf_response : is_Some (ServerHealthStatus.responseTime hs) <-> classify r = online;
  cf_failures :
    ServerHealthStatus.consecutiveFailures hs =
    if Status_eqb (classify r) online then 0
    else match prev with
         | Some p => ServerHealthStatus.consecutiveFailures p
         | None => 0
         end + 1;
  cf_prev : prev = None \/ prev = stored_status w serverId;
  cf_entry_status :
    HealthCheckHistory.status entry =
    if Status_eqb (classify r) online then success else failure;
  cf_entry_error : HealthCheckHistory.error entry = error_of r;
  cf_entry_response :
    HealthCheckHistory.responseTime entry = ServerHealthStatus.responseTime hs;
  cf_frame :
    Frame w w'
      ([EvTestConnection (Server.id server); EvGetItem (KStatus serverId);
        EvGetItem (KHistory serverId)]
       ++ appended
       ++ [EvGetItem (KHistory serverId); EvSetItem (KStatus serverId)]
       ++ match Map_get serverId (healthCheckConfigs w) with
          | Some _ => EvHandleNotifications (Server.id server) :: sent
          | None => []
          end);
  cf_appended : appended = [] \/ appended = [EvSetItem (KHistory serverId)];
  cf_sent_scheduled : scheduled sent = sent;
  cf_sent_length : (length sent <= 1)%nat;
  cf_sent_transition :
    sent <> [] ->
    exists p, prev = Some p /\
      ServerHealthStatus.status p <> ServerHealthStatus.status hs;
  cf_unparsable :
    stored_history w serverId = None -> ServerHealthStatus.uptimePercentage hs = 100;
  cf_nofaults :
    NoFaults w ->
    res = Ok hs /\
    prev = stored_status w serverId /\
    statusItems w' = <[serverId := JSON hs]> (statusItems w) /\
    match stored_history w serverId with
    | Some old =>
        let kept := slice (-1000) (old ++ [entry])%list in
        appended = [EvSetItem (KHistory serverId)] /\
        historyItems w' = <[serverId := JSON kept]> (historyItems w) /\
        exists now,
          ServerHealthStatus.uptimePercentage hs =
          uptimeOf (slice (- getHealthHistory_default_limit) kept) now
    | None => appended = [] /\ historyItems w' = historyItems w
    end }.








(** *** Sample inputs *)

Definition sample_clock (n : nat) : Z := 1700000000000 + Z.of_nat n.

Definition srv1 : Server.t := Server.mk "srv1" "alpha" "10.0.0.1" 22 "root" password.
Definition srv2 : Server.t := Server.mk "srv2" "beta" "10.0.0.2" 22 "root" key.

(** A library whose connection attempts never settle. *)
Definition lib_silent : SSHClient :=
  Build_SSHClient (fun _ _ _ _ => Pending) (fun _ _ _ _ _ => Pending).


Definition cfg (serverId : string) : HealthCheckConfig.t :=
  HealthCheckConfig.mk serverId 15 true true true.


(** [srv1] is registered. *)
Definition w_registered : World :=
  mkWorld ∅ ∅ None [("srv1", cfg "srv1")] true (fun _ => false) sample_clock 0 [].

(** A stamp ten seconds before the sample clock starts. *)
Definition recently : Z := 1699999990000.

(** [srv1] has a history, and the first call to the store rejects. *)
Definition w_unreadable : World :=
  mkWorld ∅ {[ "srv1" := JSON (sample_history 1 3 recently) ]} None [] false
    (fun n => Nat.eqb n 0) sample_clock 0 [].

(** The history of [srv1] is text that does not parse. *)
Definition w_unparsable : World :=
  mkWorld ∅ {[ "srv1" := Malformed ]} None [] false (fun _ => false) sample_clock 0 [].

(** [srv1] was checked 199 times in the last seconds: 100 failures, then 99
    successes. *)
Definition w_busy : World :=
  mkWorld ∅
    {[ "srv1" := JSON (sample_history 0 100 recently ++ sample_history 99 0 recently)%list ]}
    None [("srv1", cfg "srv1")] true (fun _ => false) sample_clock 0 [].

(** [srv1] has a full history: a failure, the oldest record, then 999
    successes. *)
Definition w_full : World :=
  mkWorld ∅
    {[ "srv1" := JSON (sample_history 0 1 recently ++ sample_history 999 0 recently)%list ]}
    None [("srv1", cfg "srv1")] true (fun _ => false) sample_clock 0 [].

(** The name [SSHService] is left undefined by the import (SSHService.ts
    exports its service object as [default] only): the member lookup throws a
    [TypeError] inside the [try] block. *)
Definition test_unbound : Server.t -> JsValue -> Result JsValue :=
  fun _ _ => Throw (ThrownError "Cannot read property 'testConnection' of undefined").

(** [srv1] and [srv2] are registered and enabled, with notifications on;
    the stored status of [srv1] is [status]; the call numbered [rejected]
    (calls to the collaborators and readings of the clock count) rejects. *)
Definition w_alert (status : Status) (rejected : option nat) : World :=
  mkWorld
    {[ "srv1" := JSON (ServerHealthStatus.mk "srv1" status recently (Some recently) 0 100
                         None None) ]}
    ∅ None [("srv1", cfg "srv1"); ("srv2", cfg "srv2")] true
    (fun n => match rejected with Some k => Nat.eqb n k | None => false end)
    sample_clock 0 [].

(** ** Running the operations *)

Section Runs.

Context {A B : Type}.

Lemma bind_ok (m : M A) (k : A -> M B) w a w' :
  m w = (Ok a, w') -> bind m k w = k a w'.
Proof. intros E. unfold bind. rewrite E. reflexivity. Qed.

Lemma bind_throw (m : M A) (k : A -> M B) w e w' :
  m w = (Throw e, w') -> bind m k w = (Throw e, w').
Proof. intros E. unfold bind. rewrite E. reflexivity. Qed.

Lemma try_catch_ok (m : M A) (h : Thrown -> M A) w a w' :
  m w = (Ok a, w') -> try_catch m h w = (Ok a, w').
Proof. intros E. unfold try_catch. rewrite E. reflexivity. Qed.

Lemma try_catch_throw (m : M A) (h : Thrown -> M A) w e w' :
  m w = (Throw e, w') -> try_catch m h w = h e w'.
Proof. intros E. unfold try_catch. rewrite E. reflexivity. Qed.

End Runs.

Ltac run_prims :=
  cbv [try_catch bind getItem_status getItem_history setItem_status setItem_history
       setItem_configs external enter gets modify ret lift JSON_parse throw Date_now];
  cbv beta iota.

(** [getServerStatus] never throws: a rejected read and unparsable text
    both read as no status. *)
Lemma getServerStatus_run serverId w :
  getServerStatus serverId w =
  (Ok (if fault w (step w) then None else stored_status w serverId),
   tick [EvGetItem (KStatus serverId)] w).
Proof.
  unfold getServerStatus, stored_status. run_prims.
  destruct (fault w (step w)); [reflexivity|]. simpl.
  destruct (statusItems w !! serverId) as [[s|]|]; reflexivity.
Qed.

(** [getHealthHistory] never throws: a rejected read and unparsable text
    both read as the empty history. *)
Lemma getHealthHistory_run serverId limit w :
  getHealthHistory serverId limit w =
  (Ok (if fault w (step w) then []
       else match stored_history w serverId with
            | Some h => slice (- limit) h
            | None => []
            end),
   tick [EvGetItem (KHistory serverId)] w).
Proof.
  unfold getHealthHistory, stored_history. run_prims.
  destruct (fault w (step w)); [reflexivity|]. simpl.
  destruct (historyItems w !! serverId) as [[s|]|]; reflexivity.
Qed.

(** [addHistoryEntry] never throws; the write is attempted when the read
    and the parse went through. *)
Lemma addHistoryEntry_run serverId entry w :
  addHistoryEntry serverId entry w =
  (Ok tt,
   let w1 := tick [EvGetItem (KHistory serverId)] w in
   if fault w (step w) then w1
   else match stored_history w serverId with
        | None => w1
        | Some history =>
            let w2 := tick [EvSetItem (KHistory serverId)] w1 in
            if fault w (S (step w)) then w2
            else set_historyItems
                   (insert serverId (JSON (slice (-1000) (history ++ [entry])%list))) w2
        end).
Proof.
  unfold addHistoryEntry, stored_history. run_prims.
  destruct (fault w (step w)); [reflexivity|]. simpl.
  destruct (historyItems w !! serverId) as [[s|]|]; simpl; try reflexivity;
    destruct (fault w (S (step w))); reflexivity.
Qed.

(** [saveServerStatus] never throws. *)
Lemma saveServerStatus_run serverId status w :
  saveServerStatus serverId status w =
  (Ok tt,
   let w1 := tick [EvSetItem (KStatus serverId)] w in
   if fault w (step w) then w1
   else set_statusItems (insert serverId (JSON status)) w1).
Proof.
  unfold saveServerStatus. run_prims.
  destruct (fault w (step w)); reflexivity.
Qed.

(** [calculateUptime] never reaches its handler: it returns the uptime of
    what [getHealthHistory] yields, at most the last 100 records. *)
Lemma calculateUptime_run serverId w :
  calculateUptime serverId w =
  (Ok (uptimeOf
         (if fault w (step w) then []
          else match stored_history w serverId with
               | Some h => slice (- getHealthHistory_default_limit) h
               | None => []
               end)
         (clock w (S (step w)))),
   tick [] (tick [EvGetItem (KHistory serverId)] w)).
Proof.
  unfold calculateUptime.
  rewrite (try_catch_ok _ _ w
             (uptimeOf
                (if fault w (step w) then []
                 else match stored_history w serverId with
                      | Some h => slice (- getHealthHistory_default_limit) h
                      | None => []
                      end)
                (clock w (S (step w))))
             (tick [] (tick [EvGetItem (KHistory serverId)] w))); [reflexivity|].
  rewrite (bind_ok _ _ _ _ _ (getHealthHistory_run _ _ _)).
  reflexivity.
Qed.

Lemma uptimeOf_nil now : uptimeOf [] now = 100.
Proof. reflexivity. Qed.

Lemma uptimeOf_empty_window history now :
  Forall (fun entry => HealthCheckHistory.timestamp entry <= now - DAY_MS) history ->
  uptimeOf history now = 100.
Proof.
  intros H. unfold uptimeOf.
  replace (List.filter _ history) with (@nil HealthCheckHistory.t); [reflexivity|].
  symmetry. induction H as [|entry history Hle _ IH]; [reflexivity|].
  simpl. destruct (Z.ltb_spec (now - DAY_MS) (HealthCheckHistory.timestamp entry)); [lia|exact IH].
Qed.

(** ** Events of a run *)

Lemma events_since_app w w' evs :
  trace w' = (trace w ++ evs)%list -> events_since w w' = evs.
Proof. intros E. unfold events_since. rewrite E. apply drop_app_length. Qed.

Lemma events_since_refl w : events_since w w = [].
Proof. apply events_since_app. symmetry. apply app_nil_r. Qed.

Ltac events :=
  unfold events_since; simpl;
  repeat rewrite <- app_assoc; simpl;
  repeat rewrite app_nil_r;
  try rewrite drop_app_length; try rewrite drop_all; simpl.

Lemma Status_eqb_eq a b : Status_eqb a b = true <-> a = b.
Proof. destruct a, b; simpl; split; congruence. Qed.

(** ** The history store *)

Lemma slice_last {A : Type} (n : nat) (l : list A) :
  (0 < n)%nat -> slice (- Z.of_nat n) l = drop (length l - n) l.
Proof.
  intros Hn. unfold slice.
  destruct (Z.ltb_spec (- Z.of_nat n) 0); [|lia].
  f_equal. lia.
Qed.

Lemma slice_1000 {A : Type} (l : list A) : slice (-1000) l = drop (length l - 1000) l.
Proof. apply (slice_last 1000 l). lia. Qed.


Lemma last_drop {A : Type} (n : nat) (l : list A) :
  (n < length l)%nat -> last (drop n l) = last l.
Proof.
  intros Hn. rewrite !last_lookup, lookup_drop, length_drop.
  f_equal. lia.
Qed.

Lemma Frame_refl w : Frame w w [].
Proof. split; try reflexivity. symmetry. apply app_nil_r. Qed.

Lemma Frame_trans w w' w'' evs evs' :
  Frame w w' evs -> Frame w' w'' evs' -> Frame w w'' (evs ++ evs').
Proof.
  intros [] []. split; try congruence.
  rewrite app_assoc. congruence.
Qed.

Lemma Frame_tick w evs : Frame w (tick evs w) evs.
Proof. split; reflexivity. Qed.

Lemma NoFaults_Frame w w' evs : Frame w w' evs -> NoFaults w -> NoFaults w'.
Proof. intros [Hf _ _ _ _] H n. rewrite Hf. apply H. Qed.

Lemma stored_status_same w w' serverId :
  statusItems w' = statusItems w -> stored_status w' serverId = stored_status w serverId.
Proof. unfold stored_status. intros ->. reflexivity. Qed.

Lemma stored_history_same w w' serverId :
  historyItems w' = historyItems w -> stored_history w' serverId = stored_history w serverId.
Proof. unfold stored_history. intros ->. reflexivity. Qed.

Lemma Date_now_spec w :
  exists now w', Date_now w = (Ok now, w') /\ Frame w w' [] /\
    statusItems w' = statusItems w /\ historyItems w' = historyItems w.
Proof. exists (clock w (step w)), (tick [] w). repeat split. Qed.

Lemma probe_spec (r : Result JsValue) (serverId : string) (startTime : Z) w :
  exists probe w',
  try_catch
      (enter (EvTestConnection serverId) ;;
       let* connected := lift r in
       if truthy connected then
         let* now := Date_now in
         ret (mkProbe online (Some (now - startTime)) None)
       else
         ret (mkProbe offline None (Some "Connection failed")))
      (fun thrown =>
         ret (mkProbe error None
                (Some match thrown with
                      | ThrownError message => message
                      | _ => "Unknown error"
                      end))) w
  = (Ok probe, w') /\
  probe_status probe = classify r /\
  probe_errorMessage probe = error_of r /\
  (is_Some (probe_responseTime probe) <-> classify r = online) /\
  Frame w w' [EvTestConnection serverId] /\
  statusItems w' = statusItems w /\ historyItems w' = historyItems w.
Proof.
  run_prims.
  destruct r as [v|e]; simpl; [destruct (truthy v)|]; simpl;
    eexists _, _; (split; [reflexivity|]); simpl;
    repeat split; simpl; try reflexivity; try (rewrite app_nil_r; reflexivity);
    try (intros [? [=]]); try discriminate; eauto.
  destruct e; reflexivity.
Qed.

Lemma getServerStatus_spec serverId w :
  exists prev w',
  getServerStatus serverId w = (Ok prev, w') /\
  (prev = None \/ prev = stored_status w serverId) /\
  (NoFaults w -> prev = stored_status w serverId) /\
  Frame w w' [EvGetItem (KStatus serverId)] /\
  statusItems w' = statusItems w /\ historyItems w' = historyItems w.
Proof.
  eexists _, _. split; [apply getServerStatus_run|].
  split; [destruct (fault w (step w)); auto|].
  split; [intros H; rewrite H; reflexivity|].
  repeat split.
Qed.

Lemma addHistoryEntry_spec serverId entry w :
  exists appended w',
  addHistoryEntry serverId entry w = (Ok tt, w') /\
  ((appended = [] /\ historyItems w' = historyItems w) \/
   (appended = [EvSetItem (KHistory serverId)] /\
    (historyItems w' = historyItems w \/
     exists old, stored_history w serverId = Some old /\
       historyItems w' =
       <[serverId := JSON (slice (-1000) (old ++ [entry])%list)]> (historyItems w)))) /\
  (NoFaults w ->
   match stored_history w serverId with
   | Some old =>
       appended = [EvSetItem (KHistory serverId)] /\
       historyItems w' =
       <[serverId := JSON (slice (-1000) (old ++ [entry])%list)]> (historyItems w)
   | None => appended = [] /\ historyItems w' = historyItems w
   end) /\
  Frame w w' (EvGetItem (KHistory serverId) :: appended) /\
  statusItems w' = statusItems w.
Proof.
  rewrite addHistoryEntry_run.
  destruct (fault w (step w)) eqn:F1.
  { exists [], (tick [EvGetItem (KHistory serverId)] w). simpl.
    split; [reflexivity|]. split; [auto|].
    split; [intros H; rewrite H in F1; discriminate|]. repeat split. }
  destruct (stored_history w serverId) as [old|] eqn:Hold.
  2:{ exists [], (tick [EvGetItem (KHistory serverId)] w). simpl.
      split; [reflexivity|]. split; [auto|]. split; [auto|]. repeat split. }
  destruct (fault w (S (step w))) eqn:F2.
  { eexists [EvSetItem (KHistory serverId)], _. simpl.
    split; [reflexivity|]. split; [auto|].
    split; [intros H; rewrite H in F2; discriminate|].
    repeat split. simpl. rewrite <- app_assoc. reflexivity. }
  eexists [EvSetItem (KHistory serverId)], _. simpl.
  split; [reflexivity|]. split; [right; split; [reflexivity|right; eauto]|].
  split; [auto|].
  repeat split. simpl. rewrite <- app_assoc. reflexivity.
Qed.

Lemma calculateUptime_spec serverId w :
  exists u w',
  calculateUptime serverId w = (Ok u, w') /\
  (exists now, u = uptimeOf [] now \/
     exists h, stored_history w serverId = Some h /\
       u = uptimeOf (slice (- getHealthHistory_default_limit) h) now) /\
  (NoFaults w ->
   exists now,
     u = uptimeOf (match stored_history w serverId with
                   | Some h => slice (- getHealthHistory_default_limit) h
                   | None => []
                   end) now) /\
  Frame w w' [EvGetItem (KHistory serverId)] /\
  statusItems w' = statusItems w /\ historyItems w' = historyItems w.
Proof.
  eexists _, _. split; [apply calculateUptime_run|].
  split.
  { eexists. destruct (fault w (step w)); [left; reflexivity|].
    destruct (stored_history w serverId); [right; eauto|left; reflexivity]. }
  split; [intros H; rewrite H; eauto|].
  repeat split. simpl. rewrite <- app_assoc. reflexivity.
Qed.

Lemma saveServerStatus_spec serverId status w :
  exists w',
  saveServerStatus serverId status w = (Ok tt, w') /\
  (NoFaults w -> statusItems w' = <[serverId := JSON status]> (statusItems w)) /\
  Frame w w' [EvSetItem (KStatus serverId)] /\
  historyItems w' = historyItems w.
Proof.
  eexists. split; [apply saveServerStatus_run|]. simpl.
  split; [intros H; rewrite H; reflexivity|].
  destruct (fault w (step w)); repeat split.
Qed.

Lemma handleNotifications_spec server currentStatus previousStatus config w :
  exists res sent w',
  handleNotifications server currentStatus previousStatus config w = (res, w') /\
  (res = Ok tt \/ (exists e, res = Throw e) /\ sent <> []) /\
  (NoFaults w -> res = Ok tt) /\
  scheduled sent = sent /\ (length sent <= 1)%nat /\
  (sent <> [] ->
   exists p, previousStatus = Some p /\
     ServerHealthStatus.status p <> ServerHealthStatus.status currentStatus) /\
  Frame w w' (EvHandleNotifications (Server.id server) :: sent) /\
  statusItems w' = statusItems w /\ historyItems w' = historyItems w.
Proof.
  unfold handleNotifications, sendNotification. run_prims.
  assert (Hsome : forall p : ServerHealthStatus.t,
            previousStatus = Some p ->
            Status_eqb (ServerHealthStatus.status p)
              (ServerHealthStatus.status currentStatus) = false ->
            exists p, previousStatus = Some p /\
              ServerHealthStatus.status p <> ServerHealthStatus.status currentStatus).
  { intros p -> Eq. exists p. split; [reflexivity|].
    intros E. apply Status_eqb_eq in E. congruence. }
  destruct previousStatus as [p|]; simpl;
    [destruct (Status_eqb (ServerHealthStatus.status p)
                 (ServerHealthStatus.status currentStatus)) eqn:Eq; simpl|];
    [| specialize (Hsome p eq_refl Eq);
       destruct (Status_eqb (ServerHealthStatus.status currentStatus) online),
         (HealthCheckConfig.notifyOnFailure config),
         (HealthCheckConfig.notifyOnRecovery config); simpl;
       try destruct (fault w (step w)) eqn:F; simpl |];
    match goal with
    | |- exists res sent w', (?R, ?W) = _ /\ _ =>
        exists R, (scheduled (events_since w W)), W
    end;
    (split; [reflexivity|]); events;
    (split; [first [left; reflexivity | right; split; [eauto|discriminate]]|]);
    (split; [first [reflexivity | intros H; rewrite H in F; discriminate]|]);
    (split; [reflexivity|]); (split; [lia|]);
    (split; [first [intros _; exact Hsome | intros E; congruence]|]);
    repeat split; simpl; repeat rewrite <- app_assoc; reflexivity.
Qed.

Lemma stored_history_insert serverId h (items : gmap string (Text (list HealthCheckHistory.t))) w' :
  historyItems w' = <[serverId := JSON h]> items ->
  stored_history w' serverId = Some h.
Proof. unfold stored_history. intros ->. rewrite lookup_insert_eq. reflexivity. Qed.

Lemma checkServerHealth_facts P serverId server w :
  exists res w' hs prev entry appended sent,
    checkServerHealth P serverId server w = (res, w') /\
    CheckFacts (P server (JsNumber 5000)) serverId server w res w' hs prev entry appended sent.
Proof.
  unfold checkServerHealth.
  set (r := P server (JsNumber 5000)).
  destruct (Date_now_spec w) as (t0 & w1 & E1 & F1 & S1 & H1).
  rewrite (bind_ok _ _ _ _ _ E1).
  destruct (probe_spec r (Server.id server) t0 w1)
    as (probe & w2 & E2 & Pst & Perr & Presp & F2 & S2 & H2).
  rewrite (bind_ok _ _ _ _ _ E2). cbv zeta.
  destruct (getServerStatus_spec serverId w2) as (prev & w3 & E3 & Pprev & Pprev' & F3 & S3 & H3).
  rewrite (bind_ok _ _ _ _ _ E3).
  destruct (Date_now_spec w3) as (t1 & w4 & E4 & F4 & S4 & H4).
  rewrite (bind_ok _ _ _ _ _ E4).
  match goal with
  | |- context [addHistoryEntry serverId ?e] => set (entry := e)
  end.
  destruct (addHistoryEntry_spec serverId entry w4)
    as (appended & w5 & E5 & Papp & Papp' & F5 & S5).
  rewrite (bind_ok _ _ _ _ _ E5).
  destruct (calculateUptime_spec serverId w5) as (u & w6 & E6 & Pu & Pu' & F6 & S6 & H6).
  rewrite (bind_ok _ _ _ _ _ E6).
  destruct (Date_now_spec w6) as (t2 & w7 & E7 & F7 & S7 & H7).
  rewrite (bind_ok _ _ _ _ _ E7).
  assert (E8 : forall (b : bool) (x : option Z),
             exists lastOnline w8,
               (if b then let* now := Date_now in ret (Some now) else ret x) w7
               = (Ok lastOnline, w8) /\ Frame w7 w8 [] /\
               statusItems w8 = statusItems w7 /\ historyItems w8 = historyItems w7).
  { intros [] x; eexists _, _; (split; [reflexivity|]); repeat split.
    symmetry. apply app_nil_r. }
  match goal with
  | |- context [bind (if ?b then _ else ret ?x) _] =>
      destruct (E8 b x) as (lastOnline & w8 & E8' & F8 & S8 & H8)
  end.
  rewrite (bind_ok _ _ _ _ _ E8'). clear E8.
  match goal with
  | |- context [saveServerStatus serverId ?s] => set (hs := s)
  end.
  destruct (saveServerStatus_spec serverId hs w8) as (w9 & E9 & Psave & F9 & H9).
  rewrite (bind_ok _ _ _ _ _ E9).
  pose proof (Frame_trans _ _ _ _ _ F1 F2) as F.
  pose proof (Frame_trans _ _ _ _ _ F F3) as F'. clear F.
  pose proof (Frame_trans _ _ _ _ _ F' F4) as F. clear F'.
  pose proof (Frame_trans _ _ _ _ _ F F5) as F'. clear F.
  pose proof (Frame_trans _ _ _ _ _ F' F6) as F. clear F'.
  pose proof (Frame_trans _ _ _ _ _ F F7) as F'. clear F.
  pose proof (Frame_trans _ _ _ _ _ F' F8) as F. clear F'.
  pose proof (Frame_trans _ _ _ _ _ F F9) as F'. clear F.
  simpl in F'. rewrite !app_nil_r in F'. simpl in F'.
  assert (Hst : stored_status w2 serverId = stored_status w serverId).
  { apply stored_status_same. congruence. }
  assert (Hhi : stored_history w4 serverId = stored_history w serverId).
  { apply stored_history_same. congruence. }
  assert (Hcfg : healthCheckConfigs w9 = healthCheckConfigs w) by apply F'.
  assert (A_status : ServerHealthStatus.status hs = classify r) by exact Pst.
  assert (A_failures :
            ServerHealthStatus.consecutiveFailures hs =
            if Status_eqb (classify r) online then 0
            else match prev with
                 | Some p => ServerHealthStatus.consecutiveFailures p
                 | None => 0
                 end + 1).
  { subst hs. simpl. rewrite Pst. reflexivity. }
  assert (A_prev : prev = None \/ prev = stored_status w serverId).
  { rewrite <- Hst. exact Pprev. }
  assert (A_entry : HealthCheckHistory.status entry =
                    if Status_eqb (classify r) online then success else failure).
  { subst entry. simpl. rewrite Pst. reflexivity. }
  assert (A_unparsable : stored_history w serverId = None ->
                         ServerHealthStatus.uptimePercentage hs = 100).
  { intros Hnone. rewrite <- Hhi in Hnone. subst hs. simpl.
    assert (H5 : stored_history w5 serverId = None).
    { rewrite <- Hnone. apply stored_history_same.
      destruct Papp as [[_ ?]|[_ [?|(old & Hold & _)]]]; try assumption. congruence. }
    destruct Pu as (now & [->|(h & Hh & _)]); [reflexivity|congruence]. }
  assert (A_nofaults : NoFaults w ->
            prev = stored_status w serverId /\
            statusItems w9 = <[serverId := JSON hs]> (statusItems w) /\
            match stored_history w serverId with
            | Some old =>
                let kept := slice (-1000) (old ++ [entry])%list in
                appended = [EvSetItem (KHistory serverId)] /\
                historyItems w9 = <[serverId := JSON kept]> (historyItems w) /\
                exists now,
                  ServerHealthStatus.uptimePercentage hs =
                  uptimeOf (slice (- getHealthHistory_default_limit) kept) now
            | None => appended = [] /\ historyItems w9 = historyItems w
            end).
  { intros N.
    pose proof (NoFaults_Frame _ _ _ F1 N) as N1.
    pose proof (NoFaults_Frame _ _ _ F2 N1) as N2.
    pose proof (NoFaults_Frame _ _ _ F3 N2) as N3.
    pose proof (NoFaults_Frame _ _ _ F4 N3) as N4.
    pose proof (NoFaults_Frame _ _ _ F5 N4) as N5.
    pose proof (NoFaults_Frame _ _ _ F6 N5) as N6.
    pose proof (NoFaults_Frame _ _ _ F7 N6) as N7.
    pose proof (NoFaults_Frame _ _ _ F8 N7) as N8.
    split; [rewrite <- Hst; auto|].
    split; [rewrite (Psave N8); f_equal; congruence|].
    specialize (Papp' N4). specialize (Pu' N5). rewrite Hhi in Papp'.
    destruct (stored_history w serverId) as [old|].
    - destruct Papp' as [-> Hins]. cbv zeta. split; [reflexivity|].
      assert (H5 : historyItems w5 =
                   <[serverId := JSON (slice (-1000) (old ++ [entry])%list)]> (historyItems w)).
      { rewrite Hins. f_equal. congruence. }
      split; [congruence|].
      rewrite (stored_history_insert _ _ _ _ H5) in Pu'. exact Pu'.
    - destruct Papp' as [-> Hsame]. split; [reflexivity|congruence]. }
  rewrite (bind_ok _ _ w9 (Map_get serverId (healthCheckConfigs w)) w9)
    by (unfold gets; rewrite Hcfg; reflexivity).
  destruct (Map_get serverId (healthCheckConfigs w)) as [config|] eqn:Hget.
  - destruct (handleNotifications_spec server hs prev config w9)
      as (res & sent & w10 & E10 & Pres & Pres' & Psch & Plen & Ptr & F10 & S10 & H10).
    pose proof (Frame_trans _ _ _ _ _ F' F10) as F.
    assert (Hev : Frame w w10
              ([EvTestConnection (Server.id server); EvGetItem (KStatus serverId);
                EvGetItem (KHistory serverId)]
               ++ appended
               ++ [EvGetItem (KHistory serverId); EvSetItem (KStatus serverId)]
               ++ EvHandleNotifications (Server.id server) :: sent)).
    { simpl. simpl in F. rewrite <- !app_assoc in F. exact F. }
    assert (Hres : forall N : NoFaults w, res = Ok tt).
    { intros N. apply Pres'.
      eapply NoFaults_Frame; [exact F'|exact N]. }
    exists (match res with Ok _ => Ok hs | Throw e => Throw e end), w10,
      hs, prev, entry, appended, sent.
    split.
    { destruct res as [[]|e];
        [rewrite (bind_ok _ _ _ _ _ E10)|rewrite (bind_throw _ _ _ _ _ E10)]; reflexivity. }
    constructor; try assumption; try reflexivity.
    + destruct Pres as [->|[[e ->] Hne]]; [left; reflexivity|right; eauto].
    + rewrite Hget. exact Hev.
    + destruct Papp as [[-> _]|[-> _]]; auto.
    + intros N. rewrite (Hres N). destruct (A_nofaults N) as (? & ? & Hh).
      repeat split; try assumption; [congruence|].
      destruct (stored_history w serverId); [|destruct Hh; split; congruence].
      destruct Hh as (? & ? & ?). repeat split; try assumption. congruence.
  - exists (Ok hs), w9, hs, prev, entry, appended, [].
    split; [reflexivity|].
    constructor; try assumption; try reflexivity; auto.
    + rewrite Hget. simpl. simpl in F'. rewrite <- !app_assoc in F'. exact F'.
    + destruct Papp as [[-> _]|[-> _]]; auto.
    + intros Hne. destruct Hne. reflexivity.
Qed.

(** The three key families do not meet, and a key determines its target:
    this is what lets the store be kept as one typed partition per family. *)
Lemma Key_toString_inj k1 k2 : Key_toString k1 = Key_toString k2 -> k1 = k2.
Proof.
  destruct k1 as [a|a|], k2 as [b|b|]; simpl; intros H;
    try discriminate; try reflexivity;
    injection H as H; f_equal; exact H.
Qed.

Ltac facts_of Facts :=
  destruct Facts as [Hresult Hid Hstatus Herror Hresponse Hfailures Hprev
                     Hentry_status Hentry_error Hentry_response Hframe Happended
                     Hscheduled Hlength Htransition Hunparsable Hnofaults].

(** ** The probe *)




Lemma stored_status_insert serverId hs
    (items : gmap string (Text ServerHealthStatus.t)) w' :
  statusItems w' = <[serverId := JSON hs]> items ->
  stored_status w' serverId = Some hs.
Proof. unfold stored_status. intros ->. rewrite lookup_insert_eq. reflexivity. Qed.


(** A test that throws, as when the import leaves the name [SSHService]
    undefined, gives the status [error] with the message of the exception,
    whatever the server. *)
Lemma checkServerHealth_throwing_test test serverId server w message :
  test server (JsNumber 5000) = Throw (ThrownError message) ->
  NoFaults w ->
  exists hs w',
    checkServerHealth test serverId server w = (Ok hs, w') /\
    ServerHealthStatus.status hs = error /\
    ServerHealthStatus.errorMessage hs = Some message.
Proof.
  intros Htest N.
  destruct (checkServerHealth_facts test serverId server w)
    as (res & w' & hs & prev & entry & appended & sent & E & Facts).
  rewrite Htest in Facts. facts_of Facts.
  destruct (Hnofaults N) as (-> & _).
  exists hs, w'. split; [exact E|]. split; assumption.
Qed.



(** ** Consecutive failures *)







(** ** The uptime calculation *)

(** C7 (the code departs from it).  [calculateUptime] computes
    [Math.round((successCount / length) * 100)] in binary64: the quotient is
    rounded before it is scaled.  For 23 successes among 40 records in the
    window, [23 / 40] rounds below 0.575 and the product below 57.5, so the
    result is 57, where round-half-up of [100 * 23 / 40 = 57.5] is 58. *)
Theorem C7_uptime_of_23_in_40_is_57 :
  let history := sample_history 23 17 recently in
  let now := sample_clock 0 in
  List.forallb (fun entry => now - DAY_MS <? HealthCheckHistory.timestamp entry) history = true /\
  length history = 40%nat /\
  length (List.filter (fun entry => Outcome_eqb (HealthCheckHistory.status entry) success)
            history) = 23%nat /\
  uptimeOf history now = 57 /\
  spec_uptime 23 40 = 58.
Proof. vm_compute. repeat split. Qed.

(** C10, as stated, fails: a rejected read of the history gives 100, and
    so does a stored history that does not parse. *)
Lemma C10_rejected_read_gives_100_not_0 :
  (fault w_unreadable (step w_unreadable) = true /\
   fst (calculateUptime "srv1" w_unreadable) = Ok 100 /\
   fst (calculateUptime "srv1" w_unreadable) <> Ok 0) /\
  (historyItems w_unparsable !! "srv1" = Some Malformed /\
   fst (calculateUptime "srv1" w_unparsable) = Ok 100 /\
   fst (calculateUptime "srv1" w_unparsable) <> Ok 0).
Proof. vm_compute. repeat split; discriminate. Qed.

(** C10, amended.  When the read of the history rejects, or the stored
    text does not parse, [getHealthHistory] drops the failure and yields the
    empty history: [calculateUptime] returns 100, the value of an empty
    window, and its own handler (which returns 0) is not reached.  A target
    whose stored history does not parse gets 100 in the status that the check
    assembles, and stores when the store answers. *)
Theorem C10_failed_history_read_gives_100 (serverId : string) (w : World) :
  (fault w (step w) = true \/ stored_history w serverId = None ->
   fst (calculateUptime serverId w) = Ok 100) /\
  (forall test server,
     stored_history w serverId = None -> NoFaults w ->
     exists hs,
       fst (checkServerHealth test serverId server w) = Ok hs /\
       stored_status (snd (checkServerHealth test serverId server w)) serverId = Some hs /\
       ServerHealthStatus.uptimePercentage hs = 100).
Proof.
  split.
  - intros H. rewrite calculateUptime_run. simpl.
    destruct H as [-> | H]; [reflexivity|].
    rewrite H. destruct (fault w (step w)); reflexivity.
  - intros test server Hnone N.
    destruct (checkServerHealth_facts test serverId server w)
      as (res & w' & hs & prev & entry & appended & sent & E & Facts).
    rewrite E. simpl. facts_of Facts.
    destruct (Hnofaults N) as (-> & _ & Hst & _).
    exists hs. split; [reflexivity|].
    split; [exact (stored_status_insert _ _ _ _ Hst)|exact (Hunparsable Hnone)].
Qed.

Lemma C10_witness :
  fault w_unreadable (step w_unreadable) = true /\
  fst (calculateUptime "srv1" w_unreadable) = Ok 100.
Proof.
  split; [reflexivity|].
  apply (C10_failed_history_read_gives_100 "srv1" w_unreadable).
  left. reflexivity.
Defined.

(** C3 (the code departs from it).  [calculateUptime] fetches the history
    with the default limit of [getHealthHistory], 100 records.  The target
    has 199 retained records, all inside the 24-hour window: 100 failures,
    then 99 successes.  After one more check, 200 records are retained, all
    inside the window.  When the check ends [online] the stored uptime is
    100, and over all retained records it is 50; when the check ends [error]
    the stored uptime is 99, and over all retained records it is 50 again
    (49.5 rounded). *)
Theorem C3_uptime_counts_only_the_last_100 :
  let stored_and_all test :=
    match checkServerHealth test "srv1" srv1 w_busy with
    | (Ok hs, w') =>
        match stored_status w' "srv1", stored_history w' "srv1" with
        | Some hs', Some retained =>
            if List.forallb
                 (fun entry => ServerHealthStatus.lastChecked hs - DAY_MS
                               <? HealthCheckHistory.timestamp entry) retained
            then Some (length retained,
                       ServerHealthStatus.uptimePercentage hs',
                       uptimeOf retained (ServerHealthStatus.lastChecked hs))
            else None
        | _, _ => None
        end
    | (Throw _, _) => None
    end in
  stored_and_all (SSHService_object lib_silent)
  = Some (200%nat, 100, 50) /\
  stored_and_all test_unbound = Some (200%nat, 99, 50).
Proof. vm_compute. split; reflexivity. Qed.

(** ** The monitoring pass *)

(** C4 (the code departs from it).  [sendNotification] catches nothing.
    Two targets are enabled and both servers exist.  The check of [srv1]
    ends in a status that differs from the stored one and the sink rejects
    the notification: the exception leaves [checkServerHealth] and the loop,
    the task returns [Failed] and [srv2] is not checked.  This is so when
    the check ends [error] (the name [SSHService] unbound) after a stored
    [online], and when it ends [online] (the service object of SSHService.ts)
    after a stored [offline].  When the sink accepts the notification, both
    targets are checked. *)
Theorem C4_rejected_notification_aborts_the_pass :
  let servers := Ok [srv1; srv2] in
  let run_a := MONITORING_TASK_handler test_unbound servers (w_alert online (Some 9%nat)) in
  let run_b :=
    MONITORING_TASK_handler (SSHService_object lib_silent)
      servers (w_alert offline (Some 11%nat)) in
  let run_c := MONITORING_TASK_handler test_unbound servers (w_alert online None) in
  Map_values (healthCheckConfigs (w_alert online None)) = [cfg "srv1"; cfg "srv2"] /\
  (fst run_a = Ok Failed /\
   probed (events_since (w_alert online (Some 9%nat)) (snd run_a)) = ["srv1"] /\
   scheduled (events_since (w_alert online (Some 9%nat)) (snd run_a))
   = [EvScheduleNotification "Server alpha is error"
        "Cannot read property 'testConnection' of undefined" "srv1" "failure"]) /\
  (fst run_b = Ok Failed /\
   probed (events_since (w_alert offline (Some 11%nat)) (snd run_b)) = ["srv1"] /\
   scheduled (events_since (w_alert offline (Some 11%nat)) (snd run_b))
   = [EvScheduleNotification "Server alpha is back online" "Response time: 1ms"
        "srv1" "recovery"]) /\
  (fst run_c = Ok NewData /\
   probed (events_since (w_alert online None) (snd run_c)) = ["srv1"; "srv2"]).
Proof. vm_compute. repeat split. Qed.

(** ** The transition notifier *)

(** C5.  [handleNotifications] hands a notification to the sink only when a
    previous status exists and its [status] differs from the new one: none
    on the first recorded status, none for two equal statuses, and never
    more than one. *)
Theorem C5_notification_only_on_transition
    (server : Server.t) (currentStatus : ServerHealthStatus.t)
    (previousStatus : option ServerHealthStatus.t) (config : HealthCheckConfig.t)
    (w : World) :
  let w' := snd (handleNotifications server currentStatus previousStatus config w) in
  let sent := scheduled (events_since w w') in
  (sent <> [] ->
   exists p, previousStatus = Some p /\
             ServerHealthStatus.status p <> ServerHealthStatus.status currentStatus) /\
  (previousStatus = None -> sent = []) /\
  (previousStatus = Some currentStatus -> sent = []) /\
  (length sent <= 1)%nat.
Proof.
  unfold handleNotifications. run_prims.
  destruct previousStatus as [p|]; simpl.
  - destruct (Status_eqb (ServerHealthStatus.status p) (ServerHealthStatus.status currentStatus))
      eqn:Eq; simpl.
    + apply Status_eqb_eq in Eq. events.
      repeat split; try congruence; lia.
    + assert (Hne : ServerHealthStatus.status p <> ServerHealthStatus.status currentStatus).
      { intros E. apply Status_eqb_eq in E. congruence. }
      assert (Hp : Some p = Some currentStatus -> False) by (intros [= ->]; congruence).
      destruct (Status_eqb (ServerHealthStatus.status currentStatus) online),
        (HealthCheckConfig.notifyOnFailure config),
        (HealthCheckConfig.notifyOnRecovery config); simpl;
        try destruct (fault w (step w)); simpl; events;
        (split; [intros _; eauto | split; [congruence | split; [intros E; destruct (Hp E) | lia]]]).
  - events. repeat split; try congruence; lia.
Qed.

Lemma C5_witness :
  scheduled
    (events_since w_registered
       (snd (handleNotifications srv1
               (ServerHealthStatus.mk "srv1" offline recently None 1 0 None
                  (Some "Connection failed"))
               None (cfg "srv1") w_registered))) = [].
Proof.
  destruct (C5_notification_only_on_transition srv1
              (ServerHealthStatus.mk "srv1" offline recently None 1 0 None
                 (Some "Connection failed"))
              None (cfg "srv1") w_registered) as (_ & Hfirst & _).
  exact (Hfirst eq_refl).
Defined.

(** ** The history store *)

Lemma addHistoryEntry_keeps_or_trims serverId entry w :
  historyItems (snd (addHistoryEntry serverId entry w)) !! serverId
  = historyItems w !! serverId \/
  exists h',
    historyItems (snd (addHistoryEntry serverId entry w)) !! serverId = Some (JSON h') /\
    (length h' <= 1000)%nat.
Proof.
  rewrite addHistoryEntry_run. simpl.
  destruct (fault w (step w)); [left; reflexivity|].
  destruct (stored_history w serverId) as [history|]; [|left; reflexivity].
  destruct (fault w (S (step w))); [left; reflexivity|].
  right. simpl. rewrite lookup_insert_eq. eexists. split; [reflexivity|].
  rewrite slice_1000, length_drop. lia.
Qed.

(** C8.  After [addHistoryEntry] the history of the target holds at most
    1000 records; the records kept are the most recent ones, in arrival
    order, the new one last.  On a history of 1000 records the append leaves
    1000 records: the old ones without the oldest, then the new one.  (When
    the store rejects a call, or the stored text does not parse, the append
    is dropped and the history stays as it was: a history within the bound
    stays within it whatever the store does.) *)
Theorem C8_history_bounded_fifo (serverId : string) (entry : HealthCheckHistory.t)
    (w : World) :
  let w' := snd (addHistoryEntry serverId entry w) in
  (historyItems w' !! serverId = historyItems w !! serverId \/
   exists h', historyItems w' !! serverId = Some (JSON h') /\ (length h' <= 1000)%nat) /\
  (forall old,
     stored_history w serverId = Some old -> (length old <= 1000)%nat ->
     exists h', stored_history w' serverId = Some h' /\ (length h' <= 1000)%nat) /\
  (forall old,
     fault w (step w) = false -> fault w (S (step w)) = false ->
     stored_history w serverId = Some old ->
     exists h',
       historyItems w' !! serverId = Some (JSON h') /\
       (length h' <= 1000)%nat /\
       h' `suffix_of` (old ++ [entry])%list /\
       last h' = Some entry /\
       ((length old < 1000)%nat -> h' = (old ++ [entry])%list) /\
       (length old = 1000%nat -> h' = (tail old ++ [entry])%list /\ length h' = 1000%nat)).
Proof.
  pose proof (addHistoryEntry_keeps_or_trims serverId entry w) as Hbound.
  simpl. rewrite addHistoryEntry_run in *. simpl in *.
  split; [exact Hbound|]. split.
  - intros old Hold Hlen. unfold stored_history in *.
    destruct Hbound as [-> | (h' & -> & Hle)]; eauto.
  - intros old F1 F2 Hold. rewrite F1, Hold, F2. simpl.
    rewrite lookup_insert_eq. eexists. split; [reflexivity|].
    rewrite slice_1000.
    assert (Hlen : length (old ++ [entry]) = S (length old))
      by (rewrite length_app; simpl; lia).
    repeat split.
    + rewrite length_drop. lia.
    + apply suffix_drop.
    + rewrite last_drop by lia. apply last_snoc.
    + intros Hlt. rewrite Hlen.
      replace (S (length old) - 1000)%nat with 0%nat by lia. reflexivity.
    + rewrite Hlen. replace (S (length old) - 1000)%nat with 1%nat by lia.
      destruct old; [discriminate|reflexivity].
    + rewrite length_drop. lia.
Qed.

Lemma C8_witness :
  let old := (sample_history 0 1 recently ++ sample_history 999 0 recently)%list in
  let entry := HealthCheckHistory.mk (sample_clock 0) success (Some 40) None in
  fault w_full (step w_full) = false /\
  fault w_full (S (step w_full)) = false /\
  stored_history w_full "srv1" = Some old /\
  exists h',
    historyItems (snd (addHistoryEntry "srv1" entry w_full)) !! "srv1" = Some (JSON h') /\
    h' = (sample_history 999 0 recently ++ [entry])%list /\
    length h' = 1000%nat.
Proof.
  intros old entry.
  split; [reflexivity|]. split; [reflexivity|]. split; [reflexivity|].
  destruct (C8_history_bounded_fifo "srv1" entry w_full) as (_ & _ & H).
  destruct (H old eq_refl eq_refl eq_refl) as (h' & Hh & _ & _ & _ & _ & Hfull).
  destruct (Hfull eq_refl) as [Heq Hlen].
  exists h'. split; [exact Hh|]. split; [exact Heq|exact Hlen].
Defined.

(** ** The registry and the pass *)

Lemma registry_ok_nil : registry_ok [].
Proof. constructor. Qed.

Lemma registry_ok_Map_set k v m :
  k = HealthCheckConfig.serverId v -> registry_ok m -> registry_ok (Map_set k v m).
Proof.
  intros Hk H. induction H as [|[k' v'] m Hp Hm IH]; simpl.
  - repeat constructor. exact Hk.
  - destruct (String.eqb k' k); constructor; simpl; auto.
Qed.

Lemma registry_ok_Map_delete k m : registry_ok m -> registry_ok (Map_delete k m).
Proof.
  intros H. induction H as [|[k' v'] m Hp _ IH]; simpl; [constructor|].
  destruct (String.eqb k' k); simpl; [assumption|constructor; assumption].
Qed.

Lemma Map_get_key k c m :
  registry_ok m -> Map_get k m = Some c -> HealthCheckConfig.serverId c = k.
Proof.
  unfold Map_get, registry_ok. intros Hok H.
  destruct (List.find _ m) as [[k' c']|] eqn:Hfind; [|discriminate].
  injection H as ->. apply List.find_some in Hfind as [Hin Heq].
  rewrite Forall_forall in Hok. apply list_elem_of_In in Hin.
  specialize (Hok _ Hin). simpl in *. apply String.eqb_eq in Heq. congruence.
Qed.

Lemma Map_get_values c m :
  registry_ok m -> In c (Map_values m) ->
  Map_get (HealthCheckConfig.serverId c) m <> None.
Proof.
  unfold Map_get, Map_values, registry_ok. intros Hok Hin Hnone.
  apply in_map_iff in Hin as ([k c'] & Heq & Hin). simpl in Heq. subst c'.
  destruct (List.find _ m) eqn:Hfind; [discriminate|].
  pose proof (List.find_none _ _ Hfind _ Hin) as Hf. simpl in Hf.
  rewrite Forall_forall in Hok. apply list_elem_of_In in Hin.
  specialize (Hok _ Hin). simpl in Hok. subst k.
  rewrite String.eqb_refl in Hf. discriminate.
Qed.

Lemma saveConfigs_registry w :
  fst (saveConfigs w) = Ok tt /\
  healthCheckConfigs (snd (saveConfigs w)) = healthCheckConfigs w.
Proof. unfold saveConfigs. run_prims. destruct (fault w (step w)); split; reflexivity. Qed.

(** The three mutations of the registry keep every key equal to the
    [serverId] of its configuration. *)
Lemma scheduleHealthCheck_registry_ok config w :
  registry_ok (healthCheckConfigs w) ->
  registry_ok (healthCheckConfigs (snd (scheduleHealthCheck config w))).
Proof.
  intros H. unfold scheduleHealthCheck, saveConfigs, registerBackgroundTask. run_prims.
  simpl.
  destruct (fault w (step w)), (HealthCheckConfig.enabled config); simpl;
    try destruct (fault w (S (step w))); simpl;
    try destruct (taskRegistered w); simpl;
    try destruct (fault w (S (S (step w)))); simpl;
    apply registry_ok_Map_set; auto.
Qed.

Lemma unscheduleHealthCheck_registry_ok serverId w :
  registry_ok (healthCheckConfigs w) ->
  registry_ok (healthCheckConfigs (snd (unscheduleHealthCheck serverId w))).
Proof.
  intros H. unfold unscheduleHealthCheck, saveConfigs. run_prims.
  simpl. destruct (fault w (step w)); simpl; apply registry_ok_Map_delete; assumption.
Qed.

Lemma toggleMonitoring_registry_ok serverId enabled w :
  registry_ok (healthCheckConfigs w) ->
  registry_ok (healthCheckConfigs (snd (toggleMonitoring serverId enabled w))).
Proof.
  intros H. unfold toggleMonitoring, saveConfigs. run_prims.
  destruct (Map_get serverId (healthCheckConfigs w)) as [config|] eqn:Hget; [|exact H].
  pose proof (Map_get_key _ _ _ H Hget) as Hk.
  simpl. destruct (fault w (step w)); simpl; apply registry_ok_Map_set; auto.
Qed.

Lemma filter_id_Forall {A : Type} (f : A -> bool) (l : list A) :
  List.filter f l = l -> Forall (fun x => f x = true) l.
Proof.
  induction l as [|x l IH]; simpl; [constructor|].
  destruct (f x) eqn:Hx; intros H.
  - injection H as H. constructor; auto.
  - exfalso. pose proof (List.filter_length_le f l) as Hle.
    rewrite H in Hle. simpl in Hle. lia.
Qed.

Lemma probed_scheduled sent : scheduled sent = sent -> probed sent = [].
Proof.
  intros H. apply filter_id_Forall in H.
  induction H as [|ev sent Hev _ IH]; [reflexivity|].
  destruct ev; try discriminate. exact IH.
Qed.

Lemma probed_app evs evs' : probed (evs ++ evs') = (probed evs ++ probed evs')%list.
Proof. apply omap_app. Qed.

(** One check tests the connectivity of its server, once. *)
Lemma checkServerHealth_probed test serverId server w :
  exists res w' evs,
    checkServerHealth test serverId server w = (res, w') /\
    Frame w w' evs /\ probed evs = [Server.id server].
Proof.
  destruct (checkServerHealth_facts test serverId server w)
    as (res & w' & hs & prev & entry & appended & sent & E & Facts).
  facts_of Facts. eexists res, w', _. split; [exact E|]. split; [exact Hframe|].
  rewrite !probed_app.
  assert (Ha : probed appended = []) by (destruct Happended as [-> | ->]; reflexivity).
  rewrite Ha. simpl.
  destruct (Map_get serverId (healthCheckConfigs w)); [|reflexivity].
  simpl. rewrite (probed_scheduled _ Hscheduled). reflexivity.
Qed.

(** The loop of the task tests only servers whose id is the [serverId] of
    an enabled configuration of the list. *)
Lemma forEach_config_probed test servers configs w :
  exists res w' evs,
    forEach_config
      (fun config =>
         if HealthCheckConfig.enabled config then
           match List.find
                   (fun s => String.eqb (Server.id s) (HealthCheckConfig.serverId config))
                   servers with
           | Some server =>
               checkServerHealth test (HealthCheckConfig.serverId config) server ;;
               ret tt
           | None => ret tt
           end
         else ret tt)
      configs w = (res, w') /\
    Frame w w' evs /\
    forall i, In i (probed evs) ->
      exists config, In config configs /\
        HealthCheckConfig.enabled config = true /\
        HealthCheckConfig.serverId config = i.
Proof.
  revert w. induction configs as [|config configs IH]; intros w.
  - exists (Ok tt), w, []. split; [reflexivity|]. split; [apply Frame_refl|].
    intros i [].
  - cbn [forEach_config].
    assert (Hbody : exists res w1 evs1,
      (if HealthCheckConfig.enabled config then
         match List.find
                 (fun s => String.eqb (Server.id s) (HealthCheckConfig.serverId config))
                 servers with
         | Some server =>
             checkServerHealth test (HealthCheckConfig.serverId config) server ;;
             ret tt
         | None => ret tt
         end
       else ret tt) w = (res, w1) /\
      Frame w w1 evs1 /\
      forall i, In i (probed evs1) ->
        HealthCheckConfig.enabled config = true /\
        HealthCheckConfig.serverId config = i).
    { destruct (HealthCheckConfig.enabled config);
        [|exists (Ok tt), w, []; split; [reflexivity|]; split; [apply Frame_refl|intros i []]].
      destruct (List.find _ servers) as [server|] eqn:Hfind;
        [|exists (Ok tt), w, []; split; [reflexivity|]; split; [apply Frame_refl|intros i []]].
      apply List.find_some in Hfind as [_ Hid]. apply String.eqb_eq in Hid.
      destruct (checkServerHealth_probed test (HealthCheckConfig.serverId config) server w)
        as (res & w1 & evs1 & E & F & Hp).
      exists (match res with Ok _ => Ok tt | Throw e => Throw e end), w1, evs1.
      split.
      { destruct res; [rewrite (bind_ok _ _ _ _ _ E)|rewrite (bind_throw _ _ _ _ _ E)];
          reflexivity. }
      split; [exact F|]. rewrite Hp. intros i [<-|[]]. auto. }
    destruct Hbody as (res & w1 & evs1 & E & F & Hp).
    destruct res as [[]|e].
    + rewrite (bind_ok _ _ _ _ _ E).
      destruct (IH w1) as (res' & w' & evs' & E' & F' & Hp').
      exists res', w', (evs1 ++ evs')%list. split; [exact E'|].
      split; [exact (Frame_trans _ _ _ _ _ F F')|].
      intros i Hi. rewrite probed_app in Hi. apply in_app_iff in Hi as [Hi|Hi].
      * exists config. destruct (Hp i Hi). split; [left; reflexivity|auto].
      * destruct (Hp' i Hi) as (c & Hin & Hc). exists c. split; [right; exact Hin|exact Hc].
    + rewrite (bind_throw _ _ _ _ _ E).
      exists (Throw e), w1, evs1. split; [reflexivity|]. split; [exact F|].
      intros i Hi. exists config. destruct (Hp i Hi). split; [left; reflexivity|auto].
Qed.

(** The task never throws, and tests only servers that have an enabled
    configuration in the registry. *)
Lemma MONITORING_TASK_probed test getServers w :
  exists result w' evs,
    MONITORING_TASK_handler test getServers w = (Ok result, w') /\
    Frame w w' evs /\
    forall i, In i (probed evs) ->
      exists config, In config (Map_values (healthCheckConfigs w)) /\
        HealthCheckConfig.enabled config = true /\
        HealthCheckConfig.serverId config = i.
Proof.
  unfold MONITORING_TASK_handler, getConfigs, try_catch.
  rewrite (bind_ok (gets (fun w => Map_values (healthCheckConfigs w))) _ w _ w eq_refl).
  destruct getServers as [servers|e].
  - rewrite (bind_ok (lift (Ok servers)) _ w _ w eq_refl).
    destruct (forEach_config_probed test servers (Map_values (healthCheckConfigs w)) w)
      as (res & w' & evs & E & F & Hp).
    destruct res as [[]|e].
    + exists NewData, w', evs. split; [|split; assumption].
      rewrite (bind_ok _ _ _ _ _ E). reflexivity.
    + exists Failed, w', evs. split; [|split; assumption].
      rewrite (bind_throw _ _ _ _ _ E). reflexivity.
  - exists Failed, w, []. split; [reflexivity|]. split; [apply Frame_refl|intros i []].
Qed.

(** C9.  [toggleMonitoring] for a target that has no configuration changes
    nothing: the state, with the registry in memory and its stored snapshot,
    is the same, no call is made, and the next pass does not test that
    target. *)
Theorem C9_toggle_without_config_is_ignored
    (serverId : string) (enabled : bool) (w : World) :
  registry_ok (healthCheckConfigs w) ->
  Map_get serverId (healthCheckConfigs w) = None ->
  toggleMonitoring serverId enabled w = (Ok tt, w) /\
  forall test getServers,
    let w' := snd (toggleMonitoring serverId enabled w) in
    ~ In serverId (probed (events_since w' (snd (MONITORING_TASK_handler test getServers w')))).
Proof.
  intros Hok Hnone.
  assert (E : toggleMonitoring serverId enabled w = (Ok tt, w)).
  { unfold toggleMonitoring. run_prims. rewrite Hnone. reflexivity. }
  split; [exact E|]. intros test getServers. rewrite E. simpl.
  destruct (MONITORING_TASK_probed test getServers w) as (result & w' & evs & E' & F & Hp).
  rewrite E'. simpl. rewrite (events_since_app _ _ _ (fr_trace _ _ _ F)).
  intros Hin. destruct (Hp _ Hin) as (config & Hc & _ & Hid).
  apply (Map_get_values _ _ Hok) in Hc. rewrite Hid in Hc. contradiction.
Qed.

Lemma registry_ok_w_registered : registry_ok (healthCheckConfigs w_registered).
Proof. repeat constructor. Qed.

Lemma C9_witness :
  registry_ok (healthCheckConfigs w_registered) /\
  Map_get "srv2" (healthCheckConfigs w_registered) = None /\
  toggleMonitoring "srv2" false w_registered = (Ok tt, w_registered).
Proof.
  split; [exact registry_ok_w_registered|]. split; [reflexivity|].
  apply (C9_toggle_without_config_is_ignored "srv2" false w_registered
           registry_ok_w_registered eq_refl).
Defined.

(** ** The order of one check *)



